(** * RelationalGCNRegressor

    A shallow embedding of
    [gnn_scheduler/gnns/models/relational_gcn_regressor.py].

    The class is glue: its constructor builds a [MultiGraphConvolutionLayers]
    and a [GraphAggregationLayer], and [forward] calls the first and feeds
    its output to the second.  Both collaborators are imported from
    [gnn_scheduler.gnns.models]; their constructors and their call
    operators are the module's only effects.  The embedding therefore
    represents a method body as a tree of collaborator calls, and gives it
    meaning under an arbitrary implementation of the collaborators: a
    handler that threads a world (parameter initialisation, dropout masks
    and the like draw on the framework's random state) and may raise. *)

From Stdlib Require Import ZArith List String Bool Lia PrimFloat.
Import ListNotations.
Local Open Scope string_scope.
Local Open Scope Z_scope.

(** ** Python values *)

(** The exceptions that can surface.  [IndexError] is what list indexing
    raises; the others stand for what the tensor framework and the
    collaborators raise on wrong shapes, types or values. *)
Inductive exn : Type :=
| IndexError (msg : string)
| TypeError (msg : string)
| ValueError (msg : string)
| RuntimeError (msg : string).

(** The outcome of evaluating an expression: it raises or it returns. *)
Definition result (A : Type) : Type := (exn + A)%type.

Definition is_raise {A : Type} (r : result A) : bool :=
  match r with inl _ => true | inr _ => false end.

(** [l[i]] on a Python list: a negative index counts from the end, and an
    index outside [-len(l), len(l))] raises [IndexError]. *)
Definition list_getitem {A : Type} (l : list A) (i : Z) : result A :=
  let n := Z.of_nat (List.length l) in
  let j := if i <? 0 then i + n else i in
  if (j <? 0) || (n <=? j) then inl (IndexError "list index out of range")
  else match nth_error l (Z.to_nat j) with
       | Some v => inr v
       | None => inl (IndexError "list index out of range")
       end.

(** ** Tensors and the framework's activation *)

(** A [torch.Tensor]: its shape and its entries in row-major order. *)
Record Tensor : Type := mkTensor {
  shape : list Z;
  data : list float
}.

(** [torch.nn.LeakyReLU(negative_slope)]: the constructor stores the slope. *)
Record LeakyReLU : Type := mkLeakyReLU {
  negative_slope : float
}.

(** ** The collaborators' call surface *)

(** The arguments of [MultiGraphConvolutionLayers(...)] as the constructor
    passes them: three positional arguments (input size, layer sizes,
    activation), then the keywords [edge_type_num], [dropout_rate],
    [with_features] and [feature_dim_size]. *)
Record ConvArgs : Type := mkConvArgs {
  conv_in_features : Z;
  conv_layer_units : list Z;
  conv_activation : LeakyReLU;
  edge_type_num : Z;
  conv_dropout_rate : float;
  conv_with_features : bool;
  conv_feature_dim_size : Z
}.

(** The arguments of [GraphAggregationLayer(...)]: two positional arguments
    (input size, output size), then the keyword [leaky_relu_slope]. *)
Record AggArgs : Type := mkAggArgs {
  agg_in_features : Z;
  agg_out_features : Z;
  agg_leaky_relu_slope : float
}.

Section Glue.

(** The objects the two collaborator classes construct. *)
Variables ConvM AggM : Type.

(** What the module asks of its collaborators: to construct either of
    them, and to call either of them. *)
Inductive Call : Type :=
| MultiGraphConvolutionLayers_init (a : ConvArgs)
| GraphAggregationLayer_init (a : AggArgs)
| MultiGraphConvolutionLayers_call
    (m : ConvM) (node_features adj_matrices : Tensor) (h_tensor : option Tensor)
| GraphAggregationLayer_call (m : AggM) (hidden_features : Tensor).

(** What each request answers when it returns. *)
Definition Resp (c : Call) : Type :=
  match c with
  | MultiGraphConvolutionLayers_init _ => ConvM
  | GraphAggregationLayer_init _ => AggM
  | MultiGraphConvolutionLayers_call _ _ _ _ => Tensor
  | GraphAggregationLayer_call _ _ => Tensor
  end.

(** A method body: it returns, raises by itself, or calls a collaborator
    and goes on with the answer. *)
Inductive Prog (A : Type) : Type :=
| Ret (a : A)
| Raise (e : exn)
| Vis (c : Call) (k : Resp c -> Prog A).

Arguments Ret {A} a.
Arguments Raise {A} e.
Arguments Vis {A} c k.

Fixpoint bind {A B : Type} (p : Prog A) (f : A -> Prog B) : Prog B :=
  match p with
  | Ret a => f a
  | Raise e => Raise e
  | Vis c k => Vis c (fun r => bind (k r) f)
  end.

Definition call (c : Call) : Prog (Resp c) := Vis c Ret.

Definition lift {A : Type} (r : result A) : Prog A :=
  match r with
  | inl e => Raise e
  | inr a => Ret a
  end.

Notation "x <- p ;; q" := (bind p (fun x => q))
  (at level 100, p at next level, right associativity).

(** The body raises [e] by itself, after some answers of the
    collaborators: a [raise] of the module's own code, as opposed to an
    exception that a collaborator raises and the body lets through. *)
Inductive raises_itself {A : Type} : Prog A -> exn -> Prop :=
| raises_here (e : exn) : raises_itself (Raise e) e
| raises_later (c : Call) (k : Resp c -> Prog A) (r : Resp c) (e : exn) :
    raises_itself (k r) e -> raises_itself (Vis c k) e.

(** *** The class *)

(** An instance holds its two submodules. *)
Record RelationalGCNRegressor : Type := mkRelationalGCNRegressor {
  graph_conv : ConvM;
  aggregation_layer : AggM
}.

(** [RelationalGCNRegressor.__init__]. *)
Definition __init__
    (in_features : Z) (conv_units : list Z) (aggregation_units : Z)
    (dropout_rate leaky_relu_slope : float)
    (with_features : bool) (feature_dim_size : Z)
  : Prog RelationalGCNRegressor :=
  graph_conv <- call (MultiGraphConvolutionLayers_init
                        {| conv_in_features := in_features;
                           conv_layer_units := conv_units;
                           conv_activation := mkLeakyReLU leaky_relu_slope;
                           edge_type_num := 2;
                           conv_dropout_rate := dropout_rate;
                           conv_with_features := with_features;
                           conv_feature_dim_size := feature_dim_size |}) ;;
  last_units <- lift (list_getitem conv_units (-1)) ;;
  aggregation_layer <- call (GraphAggregationLayer_init
                               {| agg_in_features := last_units;
                                  agg_out_features := aggregation_units;
                                  agg_leaky_relu_slope := leaky_relu_slope |}) ;;
  Ret {| graph_conv := graph_conv; aggregation_layer := aggregation_layer |}.

(** The constructor with its defaults: [dropout_rate=0.0],
    [leaky_relu_slope=0.1] (the binary64 value nearest to one tenth),
    [with_features=False], [feature_dim_size=0]. *)
Definition __init__default
    (in_features : Z) (conv_units : list Z) (aggregation_units : Z)
  : Prog RelationalGCNRegressor :=
  __init__ in_features conv_units aggregation_units
           0%float 0x1.999999999999ap-4%float false 0.

(** [RelationalGCNRegressor.forward]. *)
Definition forward (self : RelationalGCNRegressor)
    (node_features adj_matrices : Tensor) (h_tensor : option Tensor)
  : Prog Tensor :=
  hidden_features <- call (MultiGraphConvolutionLayers_call
                             (graph_conv self)
                             node_features adj_matrices h_tensor) ;;
  output <- call (GraphAggregationLayer_call
                    (aggregation_layer self) hidden_features) ;;
  Ret output.

(** *** Running a method against an implementation of the collaborators *)

Section Run.

Variable World : Type.

(** An implementation answers every request from a world, leaves a world
    behind, and may raise instead of answering. *)
Definition Handler : Type :=
  forall c : Call, World -> result (Resp c) * World.

Variable handle : Handler.

Fixpoint run {A : Type} (p : Prog A) (w : World) : result A * World :=
  match p with
  | Ret a => (inr a, w)
  | Raise e => (inl e, w)
  | Vis c k =>
      match handle c w with
      | (inl e, w') => (inl e, w')
      | (inr r, w') => run (k r) w'
      end
  end.

(** The requests a run issues, in order. *)
Fixpoint calls {A : Type} (p : Prog A) (w : World) : list Call :=
  match p with
  | Ret _ => []
  | Raise _ => []
  | Vis c k =>
      c :: match handle c w with
           | (inl _, _) => []
           | (inr r, w') => calls (k r) w'
           end
  end.

(** *** What the spec says of the collaborators *)

(** Modelled from the spec: [GraphAggregationLayer.forward], which is
    imported from [gnn_scheduler.gnns.models] and not among the sources.
    The spec describes "a graph-aggregation component accepting hidden node
    embeddings and configured with input size, output size, and activation
    slope", "a layer that reduces per-node embeddings to a single
    graph-level representation", whose output has the layer's "declared
    output dimensionality".  An implementation meets this when whatever a
    layer constructed with output size [d] returns is a single vector of
    [d] entries: no axis for the nodes is left. *)
Definition aggregation_contract : Prop :=
  forall (a : AggArgs) (w w' : World) (agg : AggM),
    handle (GraphAggregationLayer_init a) w = (inr agg, w') ->
    forall (hidden out : Tensor) (w1 w2 : World),
      handle (GraphAggregationLayer_call agg hidden) w1 = (inr out, w2) ->
      shape out = [agg_out_features a].

(** Modelled from the spec: [MultiGraphConvolutionLayers.forward], which
    is imported from [gnn_scheduler.gnns.models] and not among the sources.
    The spec: "Passing an auxiliary feature tensor only takes effect when
    the module was constructed with feature support enabled; otherwise it
    is ignored or rejected consistently."  An implementation meets this
    when, for a stack constructed without feature support, two calls from
    the same world that differ in the auxiliary tensor alone have the same
    outcome or both raise. *)
Definition feature_flag_contract : Prop :=
  forall (a : ConvArgs) (w w' : World) (gc : ConvM),
    conv_with_features a = false ->
    handle (MultiGraphConvolutionLayers_init a) w = (inr gc, w') ->
    forall (x adj : Tensor) (h1 h2 : option Tensor) (w1 : World),
      handle (MultiGraphConvolutionLayers_call gc x adj h1) w1
      = handle (MultiGraphConvolutionLayers_call gc x adj h2) w1
      \/ (is_raise (fst (handle (MultiGraphConvolutionLayers_call gc x adj h1) w1)) = true
          /\ is_raise (fst (handle (MultiGraphConvolutionLayers_call gc x adj h2) w1)) = true).

(** Modelled from the spec: which shapes are valid is "the collaborators'
    contract, not this module's".  The inputs of a forward pass have valid
    shapes when the convolution stack accepts them and the aggregation
    layer accepts what the stack returns. *)
Definition valid_shapes (self : RelationalGCNRegressor)
    (node_features adj_matrices : Tensor) (h_tensor : option Tensor)
    (w : World) : Prop :=
  exists (hidden : Tensor) (w1 : World),
    handle (MultiGraphConvolutionLayers_call
              (graph_conv self) node_features adj_matrices h_tensor) w
    = (inr hidden, w1)
    /\ is_raise (fst (handle (GraphAggregationLayer_call
                                (aggregation_layer self) hidden) w1)) = false.

End Run.

End Glue.

Arguments Ret {ConvM AggM A} a.
Arguments Raise {ConvM AggM A} e.
Arguments Vis {ConvM AggM A} c k.
Arguments MultiGraphConvolutionLayers_init {ConvM AggM} a.
Arguments GraphAggregationLayer_init {ConvM AggM} a.
Arguments MultiGraphConvolutionLayers_call {ConvM AggM} m node_features adj_matrices h_tensor.
Arguments GraphAggregationLayer_call {ConvM AggM} m hidden_features.
Arguments bind {ConvM AggM A B} p f.
Arguments call {ConvM AggM} c.
Arguments lift {ConvM AggM A} r.
Arguments raises_itself {ConvM AggM A} _ _.
Arguments graph_conv {ConvM AggM} _.
Arguments aggregation_layer {ConvM AggM} _.
Arguments mkRelationalGCNRegressor {ConvM AggM} _ _.
Arguments __init__ {ConvM AggM} _ _ _ _ _ _ _.
Arguments __init__default {ConvM AggM} _ _ _.
Arguments forward {ConvM AggM} self node_features adj_matrices h_tensor.
Arguments run {ConvM AggM World} handle {A} p w.
Arguments calls {ConvM AggM World} handle {A} p w.
Arguments aggregation_contract {ConvM AggM World} handle.
Arguments feature_flag_contract {ConvM AggM World} handle.
Arguments valid_shapes {ConvM AggM World} handle self _ _ _ _.

(** *** Shapes across the two collaborators *)





(** ** A stand-in for the collaborators *)

(** Modelled from the spec: [MultiGraphConvolutionLayers] and
    [GraphAggregationLayer], which are not among the sources.  The stand-in
    keeps what the spec says of them and nothing of their arithmetic: each
    object remembers its configuration; the convolution stack maps node
    features of shape (N, input size) to embeddings of shape (N, last layer
    size), looks at the auxiliary tensor only when feature support is
    enabled, and rejects other shapes; the aggregation layer reduces
    embeddings of shape (N, input size) to one vector of output-size
    entries, each a copy of the first embedding entry.  The world counts
    the requests served. *)
Definition zeros (sh : list Z) : Tensor :=
  mkTensor sh (repeat 0%float (Z.to_nat (fold_right Z.mul 1 sh))).

Definition shape_eqb (s t : list Z) : bool :=
  if list_eq_dec Z.eq_dec s t then true else false.

Definition stub_conv_init (a : ConvArgs) : result ConvArgs :=
  if (conv_in_features a <=? 0) || existsb (fun u => u <=? 0) (conv_layer_units a)
  then inl (ValueError "layer sizes must be positive")
  else inr a.

Definition stub_agg_init (a : AggArgs) : result AggArgs :=
  if (agg_in_features a <=? 0) || (agg_out_features a <=? 0)
  then inl (ValueError "layer sizes must be positive")
  else inr a.

Definition stub_conv_call (m : ConvArgs) (x adj : Tensor) (h : option Tensor)
  : result Tensor :=
  match shape x with
  | [n; f] =>
      if negb (f =? conv_in_features m)
      then inl (RuntimeError "node features do not match the input size")
      else if negb (shape_eqb (shape adj) [edge_type_num m; n; n])
      then inl (RuntimeError "adjacency tensor does not match the nodes")
      else
        let d := last (conv_layer_units m) (conv_in_features m) in
        match conv_with_features m, h with
        | true, Some t =>
            if shape_eqb (shape t) [n; conv_feature_dim_size m]
            then inr (mkTensor [n; d]
                        (repeat (hd 0%float (data t)) (Z.to_nat (n * d))))
            else inl (RuntimeError "auxiliary features do not match")
        | _, _ => inr (zeros [n; d])
        end
  | _ => inl (RuntimeError "node features must be a matrix")
  end.

Definition stub_agg_call (m : AggArgs) (hidden : Tensor) : result Tensor :=
  match shape hidden with
  | [_; f] =>
      if f =? agg_in_features m
      then inr (mkTensor [agg_out_features m]
                  (repeat (hd 0%float (data hidden))
                          (Z.to_nat (agg_out_features m))))
      else inl (RuntimeError "embeddings do not match the input size")
  | _ => inl (RuntimeError "embeddings must be a matrix")
  end.

Definition stub_handle : Handler ConvArgs AggArgs nat :=
  fun c =>
    match c as c0 return nat -> result (Resp ConvArgs AggArgs c0) * nat with
    | MultiGraphConvolutionLayers_init a => fun w => (stub_conv_init a, S w)
    | GraphAggregationLayer_init a => fun w => (stub_agg_init a, S w)
    | MultiGraphConvolutionLayers_call m x adj h =>
        fun w => (stub_conv_call m x adj h, S w)
    | GraphAggregationLayer_call m hidden =>
        fun w => (stub_agg_call m hidden, S w)
    end.


(** A graph of three nodes with four features each, its two adjacency
    matrices, and auxiliary features of width five. *)
Definition x34 : Tensor := zeros [3; 4].
Definition adj233 : Tensor := zeros [2; 3; 3].
Definition aux35 : Tensor := mkTensor [3; 5] (repeat 1%float 15).

(** The module [RelationalGCNRegressor(4, [16, 8], 6)] over the stand-in,
    and two variations: a deeper stack with the same last layer size, and
    a module with feature support enabled. *)
Definition model_16_8 : RelationalGCNRegressor ConvArgs AggArgs :=
  {| graph_conv :=
       mkConvArgs 4 [16; 8] (mkLeakyReLU 0x1.999999999999ap-4%float)
                  2 0%float false 0;
     aggregation_layer := mkAggArgs 8 6 0x1.999999999999ap-4%float |}.

Definition model_32_24_8 : RelationalGCNRegressor ConvArgs AggArgs :=
  {| graph_conv :=
       mkConvArgs 4 [32; 24; 8] (mkLeakyReLU 0.25%float) 2 0.5%float false 0;
     aggregation_layer := mkAggArgs 8 6 0.25%float |}.

Definition model_with_features : RelationalGCNRegressor ConvArgs AggArgs :=
  {| graph_conv :=
       mkConvArgs 4 [16; 8] (mkLeakyReLU 0.25%float) 2 0%float true 5;
     aggregation_layer := mkAggArgs 8 6 0.25%float |}.

(** The first entry of a returned tensor, to tell two outcomes apart. *)
Definition first_entry (r : result Tensor * nat) : option float :=
  match fst r with
  | inr t => hd_error (data t)
  | inl _ => None
  end.

(** A request that constructs a collaborator, as opposed to one that
    calls a constructed one. *)
Definition is_constructor_request {ConvM AggM : Type} (c : Call ConvM AggM)
  : bool :=
  match c with
  | MultiGraphConvolutionLayers_init _ => true
  | GraphAggregationLayer_init _ => true
  | MultiGraphConvolutionLayers_call _ _ _ _ => false
  | GraphAggregationLayer_call _ _ => false
  end.

(** ** Facts about list indexing *)

Lemma nth_error_length_pred (A : Type) (l : list A) (d : A) :
  l <> [] -> nth_error l (Nat.pred (List.length l)) = Some (last l d).
Proof.
  induction l as [|x [|y t] IH]; intros Hne.
  - contradiction.
  - reflexivity.
  - change (nth_error (y :: t) (Nat.pred (List.length (y :: t)))
            = Some (last (y :: t) d)).
    apply IH. discriminate.
Qed.

Lemma list_getitem_nil (A : Type) (i : Z) :
  @list_getitem A [] i = inl (IndexError "list index out of range").
Proof.
  unfold list_getitem. cbn [List.length Z.of_nat].
  destruct (i <? 0) eqn:Hi.
  - rewrite Z.add_0_r, Hi. reflexivity.
  - apply Z.ltb_ge in Hi.
    assert (H : (0 <=? i) = true) by (apply Z.leb_le; exact Hi).
    rewrite H, orb_true_r. reflexivity.
Qed.

Lemma list_getitem_minus_one (A : Type) (l : list A) (d : A) :
  l <> [] -> list_getitem l (-1) = inr (last l d).
Proof.
  intros Hne. unfold list_getitem.
  assert (Hlen : (0 < List.length l)%nat).
  { destruct l; [contradiction | cbn; lia]. }
  change (-1 <? 0) with true. cbv iota.
  assert (H1 : (-1 + Z.of_nat (List.length l) <? 0) = false)
    by (apply Z.ltb_ge; lia).
  assert (H2 : (Z.of_nat (List.length l) <=? -1 + Z.of_nat (List.length l)) = false)
    by (apply Z.leb_gt; lia).
  rewrite H1, H2. cbn [orb].
  replace (Z.to_nat (-1 + Z.of_nat (List.length l)))
    with (Nat.pred (List.length l)) by lia.
  rewrite (nth_error_length_pred A l d Hne). reflexivity.
Qed.

Lemma list_getitem_returns_nonempty (A : Type) (l : list A) (i : Z) (v : A) :
  list_getitem l i = inr v -> l <> [].
Proof.
  intros H Hnil. subst l. rewrite list_getitem_nil in H. discriminate.
Qed.

(** ** The glue under any implementation of the collaborators *)

Section GlueFacts.

Variables ConvM AggM World : Type.
Variable handle : Handler ConvM AggM World.

(** Case analysis on the outcome of the first pending request. *)
Ltac answer :=
  match goal with
  | |- context [handle ?c ?w] =>
      let e := fresh "e" in
      let r := fresh "r" in
      let w' := fresh "w'" in
      let H := fresh "Hcall" in
      destruct (handle c w) as [[e | r] w'] eqn:H; cbn
  end.

Lemma raises_itself_inv (A : Type) (p : Prog ConvM AggM A) (e : exn) :
  raises_itself p e ->
  match p with
  | Ret _ => False
  | Raise e' => e' = e
  | Vis c k => exists r : Resp ConvM AggM c, raises_itself (k r) e
  end.
Proof.
  intros H. destruct H as [e | c k r e H].
  - reflexivity.
  - exists r. exact H.
Qed.

(** *** [forward] *)

Section Forward.

Variable self : RelationalGCNRegressor ConvM AggM.
Variables x adj : Tensor.
Variable h : option Tensor.

Local Notation "'conv_request'" :=
  (MultiGraphConvolutionLayers_call (graph_conv self) x adj h).
Local Notation "'agg_request' hidden" :=
  (GraphAggregationLayer_call (aggregation_layer self) hidden)
  (at level 10, hidden at level 9).

Lemma run_forward (w : World) :
  run handle (forward self x adj h) w
  = (let (r, w1) := handle conv_request w in
     match r with
     | inl e => (inl e, w1)
     | inr hidden => handle (agg_request hidden) w1
     end).
Proof.
  unfold forward. cbn. answer; [reflexivity |].
  answer; reflexivity.
Qed.

Lemma calls_forward (w : World) :
  calls handle (forward self x adj h) w
  = conv_request ::
    match handle conv_request w with
    | (inl _, _) => []
    | (inr hidden, _) => [agg_request hidden]
    end.
Proof.
  unfold forward. cbn. answer; [reflexivity |].
  answer; reflexivity.
Qed.

Lemma forward_never_raises_itself (e : exn) :
  ~ raises_itself (forward self x adj h) e.
Proof.
  unfold forward. cbn. intros H.
  apply raises_itself_inv in H. destruct H as [hidden H].
  apply raises_itself_inv in H. destruct H as [output H].
  apply raises_itself_inv in H. exact H.
Qed.

(** C1: for every input (node_features, adj_matrices, h_tensor), forward
    is the aggregation layer applied to what the graph convolution stack
    returns on those inputs, and nothing else: as a body it is the first
    call followed by the second; run against any collaborators its outcome
    is the outcome of the aggregation layer on the stack's output (or the
    stack's exception), and the only requests it issues are these two. *)
Theorem forward_is_aggregation_of_graph_conv :
  forward self x adj h
  = bind (call conv_request) (fun hidden => call (agg_request hidden))
  /\ forall w : World,
      run handle (forward self x adj h) w
      = (let (r, w1) := handle conv_request w in
         match r with
         | inl e => (inl e, w1)
         | inr hidden => handle (agg_request hidden) w1
         end)
      /\ calls handle (forward self x adj h) w
         = conv_request ::
           match handle conv_request w with
           | (inl _, _) => []
           | (inr hidden, _) => [agg_request hidden]
           end.
Proof.
  split; [reflexivity |].
  intros w. split; [apply run_forward | apply calls_forward].
Qed.

(** C7: forward handles no error.  It raises [e] exactly when the
    convolution stack raises [e], or the stack returns and the aggregation
    layer raises [e] on what it returned; the world it leaves is the one
    the failing call left.  It has no raise of its own, and a failing call
    is its last request: each collaborator is asked at most once. *)
Theorem forward_raises_iff_a_collaborator_raises :
  forall (w w' : World) (e : exn),
    (run handle (forward self x adj h) w = (inl e, w')
     <-> (handle conv_request w = (inl e, w')
          \/ exists (hidden : Tensor) (w1 : World),
               handle conv_request w = (inr hidden, w1)
               /\ handle (agg_request hidden) w1 = (inl e, w')))
    /\ (forall e0 : exn, ~ raises_itself (forward self x adj h) e0)
    /\ List.length (calls handle (forward self x adj h) w)
       = (if is_raise (fst (handle conv_request w)) then 1%nat else 2%nat).
Proof.
  intros w w' e. split; [| split].
  - rewrite run_forward.
    destruct (handle conv_request w) as [[e1 | hidden] w1] eqn:Hconv.
    + split.
      * intros H. left. exact H.
      * intros [H | (hidden & w2 & H & _)]; [exact H | discriminate H].
    + split.
      * intros H. right. exists hidden, w1. split; [reflexivity | exact H].
      * intros [H | (hidden' & w2 & H & Hagg)]; [discriminate H |].
        injection H as -> ->. exact Hagg.
  - apply forward_never_raises_itself.
  - rewrite calls_forward.
    destruct (handle conv_request w) as [[e1 | hidden] w1]; reflexivity.
Qed.

End Forward.

(** *** [__init__] *)

Section Constructor.

Variable in_features : Z.
Variable conv_units : list Z.
Variable aggregation_units : Z.
Variables dropout_rate leaky_relu_slope : float.
Variable with_features : bool.
Variable feature_dim_size : Z.

Local Notation "'construct'" :=
  (@__init__ ConvM AggM in_features conv_units aggregation_units
             dropout_rate leaky_relu_slope with_features feature_dim_size).

(** The two requests of the constructor. *)
Local Notation "'conv_request'" :=
  (MultiGraphConvolutionLayers_init
     {| conv_in_features := in_features;
        conv_layer_units := conv_units;
        conv_activation := mkLeakyReLU leaky_relu_slope;
        edge_type_num := 2;
        conv_dropout_rate := dropout_rate;
        conv_with_features := with_features;
        conv_feature_dim_size := feature_dim_size |}).
Local Notation "'agg_request' u" :=
  (GraphAggregationLayer_init
     {| agg_in_features := u;
        agg_out_features := aggregation_units;
        agg_leaky_relu_slope := leaky_relu_slope |})
  (at level 10, u at level 9).

Lemma run_init (w : World) :
  run handle construct w
  = (let (r, w1) := handle conv_request w in
     match r with
     | inl e => (inl e, w1)
     | inr gc =>
         match list_getitem conv_units (-1) with
         | inl e => (inl e, w1)
         | inr u =>
             let (r2, w2) := handle (agg_request u) w1 in
             match r2 with
             | inl e => (inl e, w2)
             | inr agg => (inr (mkRelationalGCNRegressor gc agg), w2)
             end
         end
     end).
Proof.
  unfold __init__. cbn. answer; [reflexivity |].
  destruct (list_getitem conv_units (-1)) as [e | u]; cbn; [reflexivity |].
  answer; reflexivity.
Qed.

Lemma calls_init (w : World) :
  calls handle construct w
  = conv_request ::
    match handle conv_request w with
    | (inl _, _) => []
    | (inr _, _) =>
        match list_getitem conv_units (-1) with
        | inl _ => []
        | inr u => [agg_request u]
        end
    end.
Proof.
  unfold __init__. cbn. answer; [reflexivity |].
  destruct (list_getitem conv_units (-1)) as [e | u]; cbn; [reflexivity |].
  answer; reflexivity.
Qed.

(** A construction that returns went through both collaborators'
    constructors, with a last layer size in between. *)
Lemma init_returns_inv (w w' : World) (self : RelationalGCNRegressor ConvM AggM) :
  run handle construct w = (inr self, w') ->
  exists (u : Z) (w1 : World),
    handle conv_request w = (inr (graph_conv self), w1)
    /\ list_getitem conv_units (-1) = inr u
    /\ handle (agg_request u) w1 = (inr (aggregation_layer self), w').
Proof.
  rewrite run_init.
  destruct (handle conv_request w) as [[e | gc] w1]; [discriminate |].
  destruct (list_getitem conv_units (-1)) as [e | u]; [discriminate |].
  destruct (handle (agg_request u) w1) as [[e | agg] w2] eqn:Hagg;
    [discriminate |].
  intros H. injection H as <- <-. exists u, w1. cbn. auto.
Qed.

(** The constructor's own raise is the failed indexing, and nothing else. *)
Lemma init_raises_itself_inv (e : exn) :
  raises_itself construct e -> list_getitem conv_units (-1) = inl e.
Proof.
  unfold __init__. cbn. intros H.
  apply raises_itself_inv in H. destruct H as [gc H].
  destruct (list_getitem conv_units (-1)) as [e' | u]; cbn in H.
  - apply raises_itself_inv in H. congruence.
  - apply raises_itself_inv in H. destruct H as [agg H].
    apply raises_itself_inv in H. contradiction.
Qed.

(** C3: the convolution stack is constructed, first of all and once, with
    the input size [in_features], the layer sizes [conv_units], a LeakyReLU
    of slope [leaky_relu_slope], an edge-type count, the dropout rate
    [dropout_rate], the flag [with_features] and the size
    [feature_dim_size]; the module's [graph_conv] is what that construction
    returned. *)
Theorem graph_conv_constructed_as_configured :
  forall w : World,
    (exists rest : list (Call ConvM AggM),
        calls handle construct w
        = MultiGraphConvolutionLayers_init
            (mkConvArgs in_features conv_units (mkLeakyReLU leaky_relu_slope)
                        2 dropout_rate with_features feature_dim_size)
          :: rest
        /\ forall a : ConvArgs, ~ In (MultiGraphConvolutionLayers_init a) rest)
    /\ forall (self : RelationalGCNRegressor ConvM AggM) (w' : World),
        run handle construct w = (inr self, w') ->
        exists w1 : World,
          handle (MultiGraphConvolutionLayers_init
                    (mkConvArgs in_features conv_units
                                (mkLeakyReLU leaky_relu_slope)
                                2 dropout_rate with_features feature_dim_size)) w
          = (inr (graph_conv self), w1).
Proof.
  intros w. split.
  - eexists. split; [apply calls_init |].
    intros a Hin.
    destruct (handle conv_request w) as [[e | gc] w1]; [exact Hin |].
    destruct (list_getitem conv_units (-1)) as [e | u]; [exact Hin |].
    destruct Hin as [Heq | []]. discriminate Heq.
  - intros self w' Hrun.
    destruct (init_returns_inv w w' self Hrun) as (u & w1 & Hconv & _ & _).
    exists w1. exact Hconv.
Qed.

(** C9: whatever the arguments, every convolution stack the constructor
    builds has edge-type count 2, and it does build one: the count is a
    literal of the body, not a parameter of [__init__]. *)
Theorem edge_type_num_is_always_two :
  forall w : World,
    (forall a : ConvArgs,
        In (MultiGraphConvolutionLayers_init a) (calls handle construct w) ->
        edge_type_num a = 2)
    /\ exists (a : ConvArgs) (rest : list (Call ConvM AggM)),
        calls handle construct w = MultiGraphConvolutionLayers_init a :: rest
        /\ edge_type_num a = 2.
Proof.
  intros w. rewrite calls_init. split.
  - intros a [Heq | Hin].
    + injection Heq as <-. reflexivity.
    + destruct (handle conv_request w) as [[e | gc] w1]; [contradiction |].
      destruct (list_getitem conv_units (-1)) as [e | u]; [contradiction |].
      destruct Hin as [Heq | []]. discriminate Heq.
  - eexists. eexists. split; reflexivity.
Qed.

(** C10: the one argument [leaky_relu_slope] is the slope of the LeakyReLU
    given to the convolution stack and the slope given to the aggregation
    layer: in every construction the two are equal to it, hence to each
    other. *)
Theorem leaky_relu_slope_is_shared :
  forall (w : World) (ca : ConvArgs) (aa : AggArgs),
    In (MultiGraphConvolutionLayers_init ca) (calls handle construct w) ->
    In (GraphAggregationLayer_init aa) (calls handle construct w) ->
    negative_slope (conv_activation ca) = leaky_relu_slope
    /\ agg_leaky_relu_slope aa = leaky_relu_slope
    /\ negative_slope (conv_activation ca) = agg_leaky_relu_slope aa.
Proof.
  intros w ca aa. rewrite calls_init. intros Hc Ha.
  assert (Hca : negative_slope (conv_activation ca) = leaky_relu_slope).
  { destruct Hc as [Heq | Hin].
    - injection Heq as <-. reflexivity.
    - destruct (handle conv_request w) as [[e | gc] w1]; [contradiction |].
      destruct (list_getitem conv_units (-1)) as [e | u]; [contradiction |].
      destruct Hin as [Heq | []]. discriminate Heq. }
  assert (Haa : agg_leaky_relu_slope aa = leaky_relu_slope).
  { destruct Ha as [Heq | Hin]; [discriminate Heq |].
    destruct (handle conv_request w) as [[e | gc] w1]; [contradiction |].
    destruct (list_getitem conv_units (-1)) as [e | u]; [contradiction |].
    destruct Hin as [Heq | []]. injection Heq as <-. reflexivity. }
  split; [exact Hca | split; [exact Haa | congruence]].
Qed.

(** C2: with a non-empty [conv_units], every aggregation layer the
    constructor builds has input size the last entry of [conv_units] (the
    output size of the convolution stack) and output size
    [aggregation_units]; it is built as soon as the stack's constructor
    returns, and the module's [aggregation_layer] is what that
    construction returned. *)
Theorem aggregation_layer_sized_by_last_conv_unit :
  conv_units <> [] ->
  forall w : World,
    (forall a : AggArgs,
        In (GraphAggregationLayer_init a) (calls handle construct w) ->
        agg_in_features a = last conv_units 0
        /\ agg_out_features a = aggregation_units)
    /\ (forall (gc : ConvM) (w1 : World),
           handle conv_request w = (inr gc, w1) ->
           In (GraphAggregationLayer_init
                 (mkAggArgs (last conv_units 0) aggregation_units
                            leaky_relu_slope))
              (calls handle construct w))
    /\ forall (self : RelationalGCNRegressor ConvM AggM) (w' : World),
        run handle construct w = (inr self, w') ->
        exists w1 : World,
          handle (GraphAggregationLayer_init
                    (mkAggArgs (last conv_units 0) aggregation_units
                               leaky_relu_slope)) w1
          = (inr (aggregation_layer self), w').
Proof.
  intros Hne w.
  pose proof (list_getitem_minus_one Z conv_units 0 Hne) as Hlast.
  split; [| split].
  - intros a. rewrite calls_init, Hlast.
    intros [Heq | Hin]; [discriminate Heq |].
    destruct (handle conv_request w) as [[e | gc] w1]; [contradiction |].
    destruct Hin as [Heq | []]. injection Heq as <-. split; reflexivity.
  - intros gc w1 Hconv. rewrite calls_init, Hconv, Hlast.
    right. left. reflexivity.
  - intros self w' Hrun.
    destruct (init_returns_inv w w' self Hrun) as (u & w1 & _ & Hu & Hagg).
    rewrite Hlast in Hu. injection Hu as <-.
    exists w1. exact Hagg.
Qed.

(** C8: with an empty [conv_units] the construction fails, whatever the
    collaborators do, before any aggregation layer (and so any module) is
    built: [conv_units[-1]] raises an index error, which is the exception
    of the construction whenever the stack's constructor returned.  A
    construction that returns had a non-empty [conv_units]; and with a
    non-empty [conv_units] the indexing returns the last entry, so the
    constructor has no raise of its own left. *)
Theorem empty_conv_units_fail_construction :
  (conv_units = [] ->
   list_getitem conv_units (-1) = inl (IndexError "list index out of range")
   /\ (forall gc : ConvM,
          raises_itself construct (IndexError "list index out of range"))
   /\ forall w : World,
       exists (e : exn) (w' : World),
         run handle construct w = (inl e, w')
         /\ (forall a : AggArgs,
                ~ In (GraphAggregationLayer_init a) (calls handle construct w))
         /\ forall (gc : ConvM) (w1 : World),
             handle conv_request w = (inr gc, w1) ->
             e = IndexError "list index out of range" /\ w' = w1)
  /\ (forall (w w' : World) (self : RelationalGCNRegressor ConvM AggM),
         run handle construct w = (inr self, w') -> conv_units <> [])
  /\ (conv_units <> [] ->
      list_getitem conv_units (-1) = inr (last conv_units 0)
      /\ forall e : exn, ~ raises_itself construct e).
Proof.
  split; [| split].
  - intros Hnil.
    pose proof (list_getitem_nil Z (-1)) as Hget. rewrite <- Hnil in Hget.
    split; [exact Hget | split].
    + intros gc. unfold __init__. cbn.
      apply raises_later with (r := gc). rewrite Hget. cbn. constructor.
    + intros w. rewrite run_init, calls_init, Hget.
      destruct (handle conv_request w) as [[e | gc] w1] eqn:Hconv.
      * exists e, w1. split; [reflexivity | split].
        -- intros a [Heq | []]. discriminate Heq.
        -- intros gc w2 H. discriminate H.
      * exists (IndexError "list index out of range"), w1.
        split; [reflexivity | split].
        -- intros a [Heq | []]. discriminate Heq.
        -- intros gc' w2 H. injection H as _ <-. split; reflexivity.
  - intros w w' self Hrun.
    destruct (init_returns_inv w w' self Hrun) as (u & w1 & _ & Hu & _).
    exact (list_getitem_returns_nonempty Z conv_units (-1) u Hu).
  - intros Hne.
    pose proof (list_getitem_minus_one Z conv_units 0 Hne) as Hlast.
    split; [exact Hlast |].
    intros e H. apply init_raises_itself_inv in H. congruence.
Qed.

(** What a forward pass returns is what the aggregation layer of the
    constructed module returned. *)
Lemma forward_output_shape
    (Hagg : aggregation_contract handle)
    (w0 w0' : World) (self : RelationalGCNRegressor ConvM AggM)
    (Hself : run handle construct w0 = (inr self, w0'))
    (x adj : Tensor) (h : option Tensor) (w w' : World) (out : Tensor) :
  run handle (forward self x adj h) w = (inr out, w') ->
  shape out = [aggregation_units].
Proof.
  destruct (init_returns_inv w0 w0' self Hself) as (u & w1 & _ & _ & Hnew).
  rewrite run_forward.
  destruct (handle (MultiGraphConvolutionLayers_call (graph_conv self) x adj h) w)
    as [[e | hidden] w2]; [discriminate |].
  intros Hcall.
  exact (Hagg _ _ _ _ Hnew _ _ _ _ Hcall).
Qed.

End Constructor.

(** Inputs of valid shapes make the forward pass return. *)
Lemma valid_shapes_forward_returns
    (self : RelationalGCNRegressor ConvM AggM)
    (x adj : Tensor) (h : option Tensor) (w : World) :
  valid_shapes handle self x adj h w ->
  exists (out : Tensor) (w' : World),
    run handle (forward self x adj h) w = (inr out, w').
Proof.
  intros (hidden & w1 & Hconv & Hagg).
  rewrite run_forward, Hconv.
  destruct (handle (GraphAggregationLayer_call (aggregation_layer self) hidden) w1)
    as [[e | out] w2]; [discriminate Hagg |].
  exists out, w2. reflexivity.
Qed.

(** The auxiliary tensor reaches the convolution stack and nothing else:
    what forward does with the stack's answer does not depend on it. *)
Lemma forward_passes_h_tensor_to_graph_conv_only
    (self : RelationalGCNRegressor ConvM AggM) (x adj : Tensor) :
  exists k : Tensor -> Prog ConvM AggM Tensor,
    forall h : option Tensor,
      forward self x adj h
      = Vis (MultiGraphConvolutionLayers_call (graph_conv self) x adj h) k.
Proof.
  eexists. intros h. unfold forward. cbn. reflexivity.
Qed.

(** *** The spec's testable properties *)


(** C5: let the convolution stack be as the spec describes it.  For a
    module constructed with [with_features=False], two forward passes from
    the same world that differ in [h_tensor] alone have the same outcome,
    or both raise. *)
Theorem h_tensor_has_no_effect_without_features :
  feature_flag_contract handle ->
  forall (in_features : Z) (conv_units : list Z) (aggregation_units : Z)
         (dropout_rate leaky_relu_slope : float) (feature_dim_size : Z)
         (w0 w0' : World) (self : RelationalGCNRegressor ConvM AggM),
    run handle (__init__ in_features conv_units aggregation_units
                         dropout_rate leaky_relu_slope
                         false feature_dim_size) w0
    = (inr self, w0') ->
    forall (x adj : Tensor) (h1 h2 : option Tensor) (w : World),
      run handle (forward self x adj h1) w
      = run handle (forward self x adj h2) w
      \/ (is_raise (fst (run handle (forward self x adj h1) w)) = true
          /\ is_raise (fst (run handle (forward self x adj h2) w)) = true).
Proof.
  intros Hflag in_features conv_units aggregation_units dropout_rate
         leaky_relu_slope feature_dim_size w0 w0' self Hself x adj h1 h2 w.
  destruct (init_returns_inv _ _ _ _ _ _ _ _ _ _ Hself)
    as (u & w1 & Hconv & _ & _).
  rewrite !run_forward.
  pose proof (fun Hoff => Hflag _ _ _ _ Hoff Hconv x adj h1 h2 w) as Hcases.
  cbn in Hcases.
  destruct (Hcases eq_refl) as [Hsame | [Hr1 Hr2]].
  - left. rewrite Hsame. reflexivity.
  - right.
    destruct (handle (MultiGraphConvolutionLayers_call (graph_conv self) x adj h1) w)
      as [[e1 | t1] w2]; [| discriminate Hr1].
    destruct (handle (MultiGraphConvolutionLayers_call (graph_conv self) x adj h2) w)
      as [[e2 | t2] w3]; [| discriminate Hr2].
    split; reflexivity.
Qed.

(** C6: let the aggregation layer be as the spec describes it.  Two
    modules constructed with the same [aggregation_units] return outputs of
    the same dimensionality, that of [aggregation_units], on inputs of
    valid shapes, however their [conv_units] lists (and their other
    arguments) differ: in particular when the lists share their last entry
    and differ in length or in earlier entries. *)
Theorem output_dimensionality_depends_on_aggregation_units :
  aggregation_contract handle ->
  forall (aggregation_units : Z)
         (in_features1 in_features2 : Z) (conv_units1 conv_units2 : list Z)
         (dropout_rate1 dropout_rate2 slope1 slope2 : float)
         (with_features1 with_features2 : bool)
         (feature_dim_size1 feature_dim_size2 : Z)
         (w1 w1' w2 w2' : World)
         (self1 self2 : RelationalGCNRegressor ConvM AggM),
    run handle (__init__ in_features1 conv_units1 aggregation_units
                         dropout_rate1 slope1
                         with_features1 feature_dim_size1) w1
    = (inr self1, w1') ->
    run handle (__init__ in_features2 conv_units2 aggregation_units
                         dropout_rate2 slope2
                         with_features2 feature_dim_size2) w2
    = (inr self2, w2') ->
    forall (x1 adj1 x2 adj2 : Tensor) (h1 h2 : option Tensor) (v1 v2 : World),
      valid_shapes handle self1 x1 adj1 h1 v1 ->
      valid_shapes handle self2 x2 adj2 h2 v2 ->
      exists (out1 out2 : Tensor) (v1' v2' : World),
        run handle (forward self1 x1 adj1 h1) v1 = (inr out1, v1')
        /\ run handle (forward self2 x2 adj2 h2) v2 = (inr out2, v2')
        /\ shape out1 = shape out2
        /\ shape out1 = [aggregation_units].
Proof.
  intros Hagg aggregation_units in_features1 in_features2
         conv_units1 conv_units2 dropout_rate1 dropout_rate2 slope1 slope2
         with_features1 with_features2 feature_dim_size1 feature_dim_size2
         w1 w1' w2 w2' self1 self2 Hself1 Hself2
         x1 adj1 x2 adj2 h1 h2 v1 v2 Hvalid1 Hvalid2.
  destruct (valid_shapes_forward_returns self1 x1 adj1 h1 v1 Hvalid1)
    as (out1 & v1' & Hrun1).
  destruct (valid_shapes_forward_returns self2 x2 adj2 h2 v2 Hvalid2)
    as (out2 & v2' & Hrun2).
  exists out1, out2, v1', v2'.
  pose proof (forward_output_shape _ _ _ _ _ _ _ Hagg _ _ _ Hself1
                                   _ _ _ _ _ _ Hrun1) as Hshape1.
  pose proof (forward_output_shape _ _ _ _ _ _ _ Hagg _ _ _ Hself2
                                   _ _ _ _ _ _ Hrun2) as Hshape2.
  repeat split; try assumption. congruence.
Qed.

End GlueFacts.

(** ** The stand-in meets what the spec says of the collaborators *)

Lemma stub_agg_init_returns (a m : AggArgs) :
  stub_agg_init a = inr m -> m = a.
Proof.
  unfold stub_agg_init.
  destruct ((agg_in_features a <=? 0) || (agg_out_features a <=? 0));
    intros H; [discriminate H | injection H as <-; reflexivity].
Qed.

Lemma stub_conv_init_returns (a m : ConvArgs) :
  stub_conv_init a = inr m -> m = a.
Proof.
  unfold stub_conv_init.
  destruct ((conv_in_features a <=? 0)
            || existsb (fun u => u <=? 0) (conv_layer_units a));
    intros H; [discriminate H | injection H as <-; reflexivity].
Qed.

Lemma stub_meets_aggregation_contract : aggregation_contract stub_handle.
Proof.
  intros a w w' agg Hnew hidden out w1 w2 Hcall.
  cbn in Hnew, Hcall.
  injection Hnew as Hnew _. injection Hcall as Hcall _.
  apply stub_agg_init_returns in Hnew. subst agg.
  unfold stub_agg_call in Hcall.
  destruct (shape hidden) as [| n [| f [| ? ?]]]; try discriminate Hcall.
  destruct (f =? agg_in_features a); [| discriminate Hcall].
  injection Hcall as <-. reflexivity.
Qed.

Lemma stub_meets_feature_flag_contract : feature_flag_contract stub_handle.
Proof.
  intros a w w' gc Hoff Hnew x adj h1 h2 w1.
  cbn in Hnew. injection Hnew as Hnew _.
  apply stub_conv_init_returns in Hnew. subst gc.
  left. cbn. f_equal. unfold stub_conv_call. rewrite Hoff.
  destruct h1, h2; reflexivity.
Qed.

(** ** The glue run on the stand-in *)

Example init_default_runs :
  run stub_handle (__init__default 4 [16; 8] 6) 0%nat = (inr model_16_8, 2%nat).
Proof. reflexivity. Qed.

Example init_default_calls :
  calls stub_handle (__init__default 4 [16; 8] 6) 0%nat
  = [MultiGraphConvolutionLayers_init (graph_conv model_16_8);
     GraphAggregationLayer_init (aggregation_layer model_16_8)].
Proof. reflexivity. Qed.

Example init_empty_conv_units_raises :
  run stub_handle (__init__default 4 [] 6) 0%nat
  = (inl (IndexError "list index out of range"), 1%nat).
Proof. reflexivity. Qed.

Example init_rejected_by_the_stack :
  run stub_handle (__init__default 0 [] 6) 0%nat
  = (inl (ValueError "layer sizes must be positive"), 1%nat).
Proof. reflexivity. Qed.

Example forward_runs :
  run stub_handle (forward model_16_8 x34 adj233 None) 2%nat
  = (inr (zeros [6]), 4%nat).
Proof. reflexivity. Qed.

Example forward_lets_the_stack_raise :
  run stub_handle (forward model_16_8 x34 x34 None) 2%nat
  = (inl (RuntimeError "adjacency tensor does not match the nodes"), 3%nat).
Proof. reflexivity. Qed.

(** With feature support enabled the auxiliary tensor does take effect. *)
Example h_tensor_takes_effect_with_features :
  first_entry (run stub_handle
                 (forward model_with_features x34 adj233 None) 2%nat)
  = Some 0%float
  /\ first_entry (run stub_handle
                    (forward model_with_features x34 adj233 (Some aux35)) 2%nat)
     = Some 1%float.
Proof. split; reflexivity. Qed.

Lemma aggregation_layer_sized_by_last_conv_unit_witness :
  [16; 8] <> []
  /\ In (GraphAggregationLayer_init (ConvM := ConvArgs)
          (mkAggArgs 8 6 0.25%float))
       (calls stub_handle (__init__ 4 [16; 8] 6 0%float 0.25%float false 0) 0%nat)
  /\ forall a : AggArgs,
      In (GraphAggregationLayer_init a)
         (calls stub_handle (__init__ 4 [16; 8] 6 0%float 0.25%float false 0) 0%nat) ->
      agg_in_features a = 8 /\ agg_out_features a = 6.
Proof.
  assert (Hne : [16; 8] <> @nil Z) by discriminate.
  pose proof (aggregation_layer_sized_by_last_conv_unit
                ConvArgs AggArgs nat stub_handle
                4 [16; 8] 6 0%float 0.25%float false 0 Hne 0%nat)
    as (Hevery & Hbuilt & _).
  split; [exact Hne | split].
  - exact (Hbuilt _ _ eq_refl).
  - exact Hevery.
Defined.

Lemma leaky_relu_slope_is_shared_witness :
  In (MultiGraphConvolutionLayers_init (graph_conv model_32_24_8))
     (calls stub_handle (__init__ 4 [32; 24; 8] 6 0.5%float 0.25%float false 0) 5%nat)
  /\ In (GraphAggregationLayer_init (aggregation_layer model_32_24_8))
        (calls stub_handle (__init__ 4 [32; 24; 8] 6 0.5%float 0.25%float false 0) 5%nat)
  /\ negative_slope (conv_activation (graph_conv model_32_24_8))
     = agg_leaky_relu_slope (aggregation_layer model_32_24_8).
Proof.
  assert (Hconv :
            In (MultiGraphConvolutionLayers_init (graph_conv model_32_24_8))
               (calls stub_handle
                  (__init__ 4 [32; 24; 8] 6 0.5%float 0.25%float false 0) 5%nat))
    by (left; reflexivity).
  assert (Hagg :
            In (GraphAggregationLayer_init (aggregation_layer model_32_24_8))
               (calls stub_handle
                  (__init__ 4 [32; 24; 8] 6 0.5%float 0.25%float false 0) 5%nat))
    by (right; left; reflexivity).
  split; [exact Hconv | split; [exact Hagg |]].
  exact (proj2 (proj2 (leaky_relu_slope_is_shared
                         ConvArgs AggArgs nat stub_handle
                         4 [32; 24; 8] 6 0.5%float 0.25%float false 0
                         5%nat _ _ Hconv Hagg))).
Defined.

Lemma empty_conv_units_fail_construction_witness :
  (@nil Z = []
   /\ run stub_handle (__init__ 4 [] 6 0%float 0.25%float false 0) 0%nat
      = (inl (IndexError "list index out of range"), 1%nat))
  /\ ([16; 8] <> [] /\ list_getitem [16; 8] (-1) = inr 8).
Proof.
  split.
  - split; [reflexivity |].
    destruct (empty_conv_units_fail_construction
                ConvArgs AggArgs nat stub_handle
                4 [] 6 0%float 0.25%float false 0)
      as (Hempty & _ & _).
    destruct (Hempty eq_refl) as (_ & _ & Hfails).
    destruct (Hfails 0%nat) as (e & w' & Hrun & _ & Hindex).
    destruct (Hindex _ _ eq_refl) as [-> ->]. exact Hrun.
  - assert (Hne : [16; 8] <> @nil Z) by discriminate.
    split; [exact Hne |].
    exact (proj1 (proj2 (proj2 (empty_conv_units_fail_construction
                                  ConvArgs AggArgs nat stub_handle
                                  4 [16; 8] 6 0%float 0.25%float false 0))
                        Hne)).
Defined.

Lemma model_16_8_valid_shapes (h : option Tensor) :
  valid_shapes stub_handle model_16_8 x34 adj233 h 2%nat.
Proof.
  exists (zeros [3; 8]), 3%nat. split; reflexivity.
Qed.






Lemma h_tensor_has_no_effect_without_features_witness :
  feature_flag_contract stub_handle
  /\ run stub_handle (__init__default 4 [16; 8] 6) 0%nat = (inr model_16_8, 2%nat)
  /\ (run stub_handle (forward model_16_8 x34 adj233 None) 2%nat
      = run stub_handle (forward model_16_8 x34 adj233 (Some aux35)) 2%nat
      \/ (is_raise (fst (run stub_handle
                           (forward model_16_8 x34 adj233 None) 2%nat)) = true
          /\ is_raise (fst (run stub_handle
                              (forward model_16_8 x34 adj233 (Some aux35)) 2%nat))
             = true)).
Proof.
  split; [exact stub_meets_feature_flag_contract |].
  split; [reflexivity |].
  exact (h_tensor_has_no_effect_without_features
           ConvArgs AggArgs nat stub_handle stub_meets_feature_flag_contract
           4 [16; 8] 6 0%float 0x1.999999999999ap-4%float 0
           0%nat 2%nat model_16_8 eq_refl
           x34 adj233 None (Some aux35) 2%nat).
Defined.

Lemma model_32_24_8_valid_shapes :
  valid_shapes stub_handle model_32_24_8 x34 adj233 (Some aux35) 7%nat.
Proof.
  exists (zeros [3; 8]), 8%nat. split; reflexivity.
Qed.

Lemma output_dimensionality_depends_on_aggregation_units_witness :
  aggregation_contract stub_handle
  /\ run stub_handle (__init__default 4 [16; 8] 6) 0%nat = (inr model_16_8, 2%nat)
  /\ run stub_handle (__init__ 4 [32; 24; 8] 6 0.5%float 0.25%float false 0) 5%nat
     = (inr model_32_24_8, 7%nat)
  /\ valid_shapes stub_handle model_16_8 x34 adj233 None 2%nat
  /\ valid_shapes stub_handle model_32_24_8 x34 adj233 (Some aux35) 7%nat
  /\ exists (out1 out2 : Tensor) (v1' v2' : nat),
      run stub_handle (forward model_16_8 x34 adj233 None) 2%nat = (inr out1, v1')
      /\ run stub_handle (forward model_32_24_8 x34 adj233 (Some aux35)) 7%nat
         = (inr out2, v2')
      /\ shape out1 = shape out2
      /\ shape out1 = [6].
Proof.
  split; [exact stub_meets_aggregation_contract |].
  split; [reflexivity |].
  split; [reflexivity |].
  split; [exact (model_16_8_valid_shapes None) |].
  split; [exact model_32_24_8_valid_shapes |].
  exact (output_dimensionality_depends_on_aggregation_units
           ConvArgs AggArgs nat stub_handle stub_meets_aggregation_contract
           6 4 4 [16; 8] [32; 24; 8]
           0%float 0.5%float 0x1.999999999999ap-4%float 0.25%float
           false false 0 0
           0%nat 2%nat 5%nat 7%nat model_16_8 model_32_24_8 eq_refl eq_refl
           x34 adj233 x34 adj233 None (Some aux35) 2%nat 7%nat
           (model_16_8_valid_shapes None) model_32_24_8_valid_shapes).
Defined.

(** ** Construction and forward pass together *)

Section Composition.

Variables ConvM AggM World : Type.
Variable handle : Handler ConvM AggM World.

(** Running a sequence: the first part, then the rest from the world it
    left, unless the first part raised. *)
Lemma run_bind (A B : Type) (p : Prog ConvM AggM A)
    (f : A -> Prog ConvM AggM B) (w : World) :
  run handle (bind p f) w
  = (let (r, w1) := run handle p w in
     match r with
     | inl e => (inl e, w1)
     | inr a => run handle (f a) w1
     end).
Proof.
  revert w. induction p as [a | e | c k IH]; intros w; cbn.
  - reflexivity.
  - reflexivity.
  - destruct (handle c w) as [[e | r] w1]; [reflexivity | apply IH].
Qed.

Lemma calls_bind (A B : Type) (p : Prog ConvM AggM A)
    (f : A -> Prog ConvM AggM B) (w : World) :
  calls handle (bind p f) w
  = (calls handle p w
     ++ match run handle p w with
        | (inl _, _) => []
        | (inr a, w1) => calls handle (f a) w1
        end)%list.
Proof.
  revert w. induction p as [a | e | c k IH]; intros w; cbn.
  - reflexivity.
  - reflexivity.
  - f_equal. destruct (handle c w) as [[e | r] w1]; [reflexivity | apply IH].
Qed.

Section Constructed.

Variable in_features : Z.
Variable conv_units : list Z.
Variable aggregation_units : Z.
Variables dropout_rate leaky_relu_slope : float.
Variable with_features : bool.
Variable feature_dim_size : Z.

Local Notation "'construct'" :=
  (@__init__ ConvM AggM in_features conv_units aggregation_units
             dropout_rate leaky_relu_slope with_features feature_dim_size).
Local Notation "'conv_request'" :=
  (MultiGraphConvolutionLayers_init
     (mkConvArgs in_features conv_units (mkLeakyReLU leaky_relu_slope)
                 2 dropout_rate with_features feature_dim_size)).
Local Notation "'agg_request'" :=
  (GraphAggregationLayer_init
     (mkAggArgs (last conv_units 0) aggregation_units leaky_relu_slope)).

(** X1: the constructor returns exactly when the stack's constructor returns,
    [conv_units] is not empty, and the aggregation layer's constructor,
    started from the world the stack's constructor left, returns; the
    module holds the two objects returned and the world is the one the
    second constructor left. *)
Theorem construction_returns_iff :
  forall (w w' : World) (self : RelationalGCNRegressor ConvM AggM),
    run handle construct w = (inr self, w')
    <-> exists w1 : World,
          handle conv_request w = (inr (graph_conv self), w1)
          /\ conv_units <> []
          /\ handle agg_request w1 = (inr (aggregation_layer self), w').
Proof.
  intros w w' self. split.
  - intros Hrun.
    destruct (init_returns_inv _ _ _ handle _ _ _ _ _ _ _ _ _ _ Hrun)
      as (u & w1 & Hconv & Hu & Hagg).
    pose proof (list_getitem_returns_nonempty Z conv_units (-1) u Hu) as Hne.
    rewrite (list_getitem_minus_one Z conv_units 0 Hne) in Hu.
    injection Hu as <-.
    exists w1. split; [exact Hconv | split; [exact Hne | exact Hagg]].
  - intros (w1 & Hconv & Hne & Hagg).
    rewrite run_init. cbn in Hconv |- *. rewrite Hconv.
    rewrite (list_getitem_minus_one Z conv_units 0 Hne).
    cbn in Hagg |- *. rewrite Hagg. destruct self; reflexivity.
Qed.

(** X2: the constructor raises [e] in exactly three ways: the stack's
    constructor raises [e]; or it returns and [conv_units] is empty, and
    [e] is the index error; or it returns, [conv_units] is not empty, and
    the aggregation layer's constructor raises [e].  The world left is the
    one the last request left.  The only exception the constructor raises
    by itself is that index error, and a failure is its last step: one
    request when the stack's constructor raises or [conv_units] is empty,
    two otherwise. *)
Theorem construction_raises_iff :
  forall (w w' : World) (e : exn),
    (run handle construct w = (inl e, w')
     <-> (handle conv_request w = (inl e, w')
          \/ (exists gc : ConvM,
                 handle conv_request w = (inr gc, w')
                 /\ conv_units = []
                 /\ e = IndexError "list index out of range")
          \/ (exists (gc : ConvM) (w1 : World),
                 handle conv_request w = (inr gc, w1)
                 /\ conv_units <> []
                 /\ handle agg_request w1 = (inl e, w'))))
    /\ (forall e0 : exn,
           raises_itself construct e0 ->
           e0 = IndexError "list index out of range" /\ conv_units = [])
    /\ List.length (calls handle construct w)
       = (if is_raise (fst (handle conv_request w)) then 1%nat
          else match conv_units with [] => 1%nat | _ :: _ => 2%nat end).
Proof.
  intros w w' e. split; [| split].
  - rewrite run_init. cbn.
    destruct (handle conv_request w) as [[e1 | gc] w1] eqn:Hconv.
    + split.
      * intros H. injection H as <- <-. left. reflexivity.
      * intros [H | [(gc & H & _) | (gc & w2 & H & _)]];
          [injection H as <- <-; reflexivity | discriminate H | discriminate H].
    + destruct conv_units as [| u0 t].
      * rewrite list_getitem_nil. split.
        -- intros H. injection H as <- <-. right. left.
           exists gc. repeat split; reflexivity.
        -- intros [H | [(gc' & H & _ & ->) | (gc' & w2 & _ & Hne & _)]].
           ++ discriminate H.
           ++ injection H as _ <-. reflexivity.
           ++ contradiction Hne. reflexivity.
      * assert (Hne : u0 :: t <> []) by discriminate.
        rewrite (list_getitem_minus_one Z (u0 :: t) 0 Hne).
        destruct (handle (GraphAggregationLayer_init
                            (mkAggArgs (last (u0 :: t) 0) aggregation_units
                                       leaky_relu_slope)) w1)
          as [[e2 | agg] w2] eqn:Hagg.
        -- split.
           ++ intros H. injection H as <- <-. right. right. exists gc, w1.
              split; [reflexivity | split; [exact Hne | exact Hagg]].
           ++ intros [H | [(gc' & _ & Hnil & _) | (gc' & w3 & H & _ & Hagg')]].
              ** discriminate H.
              ** discriminate Hnil.
              ** injection H as _ <-. rewrite Hagg in Hagg'.
                 injection Hagg' as <- <-. reflexivity.
        -- split.
           ++ intros H. discriminate H.
           ++ intros [H | [(gc' & _ & Hnil & _) | (gc' & w3 & H & _ & Hagg')]].
              ** discriminate H.
              ** discriminate Hnil.
              ** injection H as _ <-. rewrite Hagg in Hagg'.
                 discriminate Hagg'.
  - intros e0 H.
    apply init_raises_itself_inv in H.
    destruct conv_units as [| u0 t].
    + rewrite list_getitem_nil in H. injection H as <-. split; reflexivity.
    + assert (Hne : u0 :: t <> []) by discriminate.
      rewrite (list_getitem_minus_one Z (u0 :: t) 0 Hne) in H. discriminate H.
  - rewrite calls_init. cbn.
    destruct (handle conv_request w) as [[e1 | gc] w1]; [reflexivity |].
    destruct conv_units as [| u0 t].
    + rewrite list_getitem_nil. reflexivity.
    + assert (Hne : u0 :: t <> []) by discriminate.
      rewrite (list_getitem_minus_one Z (u0 :: t) 0 Hne). reflexivity.
Qed.

(** X3: constructing a module and calling it returns exactly when the four
    steps return in turn: the stack's constructor, the aggregation layer's
    constructor, the stack called on the inputs from the world the
    constructors left, and the aggregation layer called on the stack's
    output.  The forward pass reaches the very objects the constructors
    returned, and a run that returns issues these four requests in this
    order and no other. *)
Theorem construct_then_forward_returns_iff :
  forall (x adj : Tensor) (h : option Tensor) (w w' : World) (out : Tensor),
    (run handle (bind construct (fun self => forward self x adj h)) w
     = (inr out, w')
     <-> exists (gc : ConvM) (agg : AggM) (hidden : Tensor) (w1 w2 w3 : World),
           handle conv_request w = (inr gc, w1)
           /\ conv_units <> []
           /\ handle agg_request w1 = (inr agg, w2)
           /\ handle (MultiGraphConvolutionLayers_call gc x adj h) w2
              = (inr hidden, w3)
           /\ handle (GraphAggregationLayer_call agg hidden) w3 = (inr out, w'))
    /\ forall (gc : ConvM) (agg : AggM) (hidden : Tensor) (w1 w2 w3 : World),
        handle conv_request w = (inr gc, w1) ->
        conv_units <> [] ->
        handle agg_request w1 = (inr agg, w2) ->
        handle (MultiGraphConvolutionLayers_call gc x adj h) w2
        = (inr hidden, w3) ->
        calls handle (bind construct (fun self => forward self x adj h)) w
        = [conv_request; agg_request;
           MultiGraphConvolutionLayers_call gc x adj h;
           GraphAggregationLayer_call agg hidden].
Proof.
  intros x adj h w w' out. split.
  - rewrite run_bind. split.
    + destruct (run handle construct w) as [[e | self] w2] eqn:Hrun;
        [discriminate |].
      apply construction_returns_iff in Hrun.
      destruct Hrun as (w1 & Hconv & Hne & Hagg).
      rewrite run_forward.
      destruct (handle (MultiGraphConvolutionLayers_call (graph_conv self) x adj h) w2)
        as [[e | hidden] w3] eqn:Hcall; [discriminate |].
      intros Hout.
      exists (graph_conv self), (aggregation_layer self), hidden, w1, w2, w3.
      repeat split; assumption.
    + intros (gc & agg & hidden & w1 & w2 & w3
              & Hconv & Hne & Hagg & Hcall & Hout).
      assert (Hrun : run handle construct w
                     = (inr (mkRelationalGCNRegressor gc agg), w2)).
      { apply construction_returns_iff. exists w1. repeat split; assumption. }
      rewrite Hrun, run_forward. cbn. rewrite Hcall. exact Hout.
  - intros gc agg hidden w1 w2 w3 Hconv Hne Hagg Hcall.
    assert (Hrun : run handle construct w
                   = (inr (mkRelationalGCNRegressor gc agg), w2)).
    { apply construction_returns_iff. exists w1. repeat split; assumption. }
    rewrite calls_bind, Hrun, calls_init, calls_forward.
    cbn in Hconv |- *. rewrite Hconv.
    rewrite (list_getitem_minus_one Z conv_units 0 Hne).
    cbn in Hcall |- *. rewrite Hcall. reflexivity.
Qed.

End Constructed.

(** X4: the constructor only constructs and forward only calls: every request
    of a construction builds one of the two collaborators, and every
    request of a forward pass calls one of the module's own two layers, so
    a forward pass never builds a layer and a construction never runs
    one. *)
Theorem constructor_constructs_and_forward_calls :
  forall (in_features : Z) (conv_units : list Z) (aggregation_units : Z)
         (dropout_rate leaky_relu_slope : float)
         (with_features : bool) (feature_dim_size : Z)
         (self : RelationalGCNRegressor ConvM AggM)
         (x adj : Tensor) (h : option Tensor) (w v : World),
    (forall c : Call ConvM AggM,
        In c (calls handle
                (__init__ in_features conv_units aggregation_units
                          dropout_rate leaky_relu_slope
                          with_features feature_dim_size) w) ->
        is_constructor_request c = true)
    /\ forall c : Call ConvM AggM,
        In c (calls handle (forward self x adj h) v) ->
        is_constructor_request c = false
        /\ (c = MultiGraphConvolutionLayers_call (graph_conv self) x adj h
            \/ exists hidden : Tensor,
                 c = GraphAggregationLayer_call (aggregation_layer self) hidden).
Proof.
  intros in_features conv_units aggregation_units dropout_rate
         leaky_relu_slope with_features feature_dim_size self x adj h w v.
  split.
  - intros c. rewrite calls_init.
    intros [<- | Hin]; [reflexivity |].
    destruct (handle _ w) as [[e | gc] w1]; [contradiction |].
    destruct (list_getitem conv_units (-1)) as [e | u]; [contradiction |].
    destruct Hin as [<- | []]. reflexivity.
  - intros c. rewrite calls_forward.
    intros [<- | Hin].
    + split; [reflexivity | left; reflexivity].
    + destruct (handle _ v) as [[e | hidden] v1]; [contradiction |].
      destruct Hin as [<- | []].
      split; [reflexivity | right; exists hidden; reflexivity].
Qed.

(** X5: the inputs of a forward pass matter through the stack's answer alone:
    two passes, on modules with the same aggregation layer, in which the
    stack has the same outcome (answer or exception, and world) have the
    same outcome, whatever the inputs. *)
Theorem forward_outcome_determined_by_stack_outcome :
  forall (self1 self2 : RelationalGCNRegressor ConvM AggM)
         (x1 adj1 x2 adj2 : Tensor) (h1 h2 : option Tensor) (w1 w2 : World),
    aggregation_layer self1 = aggregation_layer self2 ->
    handle (MultiGraphConvolutionLayers_call (graph_conv self1) x1 adj1 h1) w1
    = handle (MultiGraphConvolutionLayers_call (graph_conv self2) x2 adj2 h2) w2 ->
    run handle (forward self1 x1 adj1 h1) w1
    = run handle (forward self2 x2 adj2 h2) w2.
Proof.
  intros self1 self2 x1 adj1 x2 adj2 h1 h2 w1 w2 Hagg Hconv.
  rewrite !run_forward. cbn in Hconv |- *. rewrite Hconv, Hagg. reflexivity.
Qed.

(** X6: the aggregation layer's configuration depends on the last entry of
    [conv_units], on [aggregation_units] and on [leaky_relu_slope] alone:
    two constructions that agree on these three build their aggregation
    layers with the same arguments, however they differ in [in_features],
    in the earlier entries or the length of [conv_units], in
    [dropout_rate], [with_features] or [feature_dim_size], and whatever the
    stack's constructor did. *)
Theorem aggregation_request_depends_on_last_unit_only :
  forall (u aggregation_units : Z) (leaky_relu_slope : float)
         (in_features1 in_features2 : Z) (earlier1 earlier2 : list Z)
         (dropout_rate1 dropout_rate2 : float)
         (with_features1 with_features2 : bool)
         (feature_dim_size1 feature_dim_size2 : Z)
         (w1 w2 : World) (a1 a2 : AggArgs),
    In (GraphAggregationLayer_init a1)
       (calls handle
          (__init__ in_features1 (earlier1 ++ [u])%list aggregation_units
                    dropout_rate1 leaky_relu_slope
                    with_features1 feature_dim_size1) w1) ->
    In (GraphAggregationLayer_init a2)
       (calls handle
          (__init__ in_features2 (earlier2 ++ [u])%list aggregation_units
                    dropout_rate2 leaky_relu_slope
                    with_features2 feature_dim_size2) w2) ->
    a1 = a2 /\ a1 = mkAggArgs u aggregation_units leaky_relu_slope.
Proof.
  intros u aggregation_units leaky_relu_slope in_features1 in_features2
         earlier1 earlier2 dropout_rate1 dropout_rate2
         with_features1 with_features2 feature_dim_size1 feature_dim_size2
         w1 w2 a1 a2.
  assert (Hlast : forall earlier : list Z,
             list_getitem (earlier ++ [u])%list (-1) = inr u).
  { intros earlier.
    assert (Hne : (earlier ++ [u])%list <> [])
      by (destruct earlier; discriminate).
    rewrite (list_getitem_minus_one Z _ 0 Hne), last_last. reflexivity. }
  assert (Hone : forall (in_features : Z) (earlier : list Z)
                        (dropout_rate : float) (with_features : bool)
                        (feature_dim_size : Z) (w : World) (a : AggArgs),
             In (GraphAggregationLayer_init a)
                (calls handle
                   (__init__ in_features (earlier ++ [u])%list aggregation_units
                             dropout_rate leaky_relu_slope
                             with_features feature_dim_size) w) ->
             a = mkAggArgs u aggregation_units leaky_relu_slope).
  { intros in_features earlier dropout_rate with_features feature_dim_size w a.
    rewrite calls_init, Hlast.
    intros [Heq | Hin]; [discriminate Heq |].
    destruct (handle _ w) as [[e | gc] w']; [contradiction |].
    destruct Hin as [Heq | []]. injection Heq as <-. reflexivity. }
  intros H1 H2. apply Hone in H1. apply Hone in H2.
  split; congruence.
Qed.

End Composition.

(** ** The composition run on the stand-in *)

Lemma construct_then_forward_returns_iff_witness :
  [16; 8] <> []
  /\ calls stub_handle
       (bind (__init__default 4 [16; 8] 6)
             (fun self => forward self x34 adj233 (Some aux35))) 0%nat
     = [MultiGraphConvolutionLayers_init (graph_conv model_16_8);
        GraphAggregationLayer_init (aggregation_layer model_16_8);
        MultiGraphConvolutionLayers_call (graph_conv model_16_8)
                                         x34 adj233 (Some aux35);
        GraphAggregationLayer_call (aggregation_layer model_16_8)
                                   (zeros [3; 8])]
  /\ run stub_handle
       (bind (__init__default 4 [16; 8] 6)
             (fun self => forward self x34 adj233 (Some aux35))) 0%nat
     = (inr (zeros [6]), 4%nat).
Proof.
  assert (Hne : [16; 8] <> @nil Z) by discriminate.
  pose proof (construct_then_forward_returns_iff
                ConvArgs AggArgs nat stub_handle
                4 [16; 8] 6 0%float 0x1.999999999999ap-4%float false 0
                x34 adj233 (Some aux35) 0%nat 4%nat (zeros [6]))
    as (Hiff & Hcalls).
  split; [exact Hne | split].
  - exact (Hcalls (graph_conv model_16_8) (aggregation_layer model_16_8)
                  (zeros [3; 8]) 1%nat 2%nat 3%nat
                  eq_refl Hne eq_refl eq_refl).
  - apply Hiff.
    exists (graph_conv model_16_8), (aggregation_layer model_16_8),
           (zeros [3; 8]), 1%nat, 2%nat, 3%nat.
    repeat split. exact Hne.
Defined.

Lemma constructor_constructs_and_forward_calls_witness :
  In (GraphAggregationLayer_init (aggregation_layer model_16_8))
     (calls stub_handle (__init__default 4 [16; 8] 6) 0%nat)
  /\ @is_constructor_request ConvArgs AggArgs
       (GraphAggregationLayer_init (aggregation_layer model_16_8)) = true
  /\ In (GraphAggregationLayer_call (aggregation_layer model_16_8) (zeros [3; 8]))
        (calls stub_handle (forward model_16_8 x34 adj233 None) 2%nat)
  /\ @is_constructor_request ConvArgs AggArgs
       (GraphAggregationLayer_call (aggregation_layer model_16_8)
                                   (zeros [3; 8])) = false.
Proof.
  pose proof (constructor_constructs_and_forward_calls
                ConvArgs AggArgs nat stub_handle
                4 [16; 8] 6 0%float 0x1.999999999999ap-4%float false 0
                model_16_8 x34 adj233 None 0%nat 2%nat)
    as (Hinit & Hforward).
  assert (H1 : In (GraphAggregationLayer_init (aggregation_layer model_16_8))
                  (calls stub_handle (__init__default 4 [16; 8] 6) 0%nat))
    by (right; left; reflexivity).
  assert (H2 : In (GraphAggregationLayer_call (aggregation_layer model_16_8)
                                              (zeros [3; 8]))
                  (calls stub_handle (forward model_16_8 x34 adj233 None) 2%nat))
    by (right; left; reflexivity).
  split; [exact H1 | split; [exact (Hinit _ H1) | split; [exact H2 |]]].
  exact (proj1 (Hforward _ H2)).
Defined.

Lemma forward_outcome_determined_by_stack_outcome_witness :
  aggregation_layer model_16_8 = aggregation_layer model_16_8
  /\ stub_handle (MultiGraphConvolutionLayers_call
                    (graph_conv model_16_8) x34 adj233 None) 2%nat
     = stub_handle (MultiGraphConvolutionLayers_call
                      (graph_conv model_16_8) x34 adj233 (Some aux35)) 2%nat
  /\ run stub_handle (forward model_16_8 x34 adj233 None) 2%nat
     = run stub_handle (forward model_16_8 x34 adj233 (Some aux35)) 2%nat.
Proof.
  split; [reflexivity | split; [reflexivity |]].
  exact (forward_outcome_determined_by_stack_outcome
           ConvArgs AggArgs nat stub_handle
           model_16_8 model_16_8 x34 adj233 x34 adj233 None (Some aux35)
           2%nat 2%nat eq_refl eq_refl).
Defined.

Lemma aggregation_request_depends_on_last_unit_only_witness :
  In (GraphAggregationLayer_init (mkAggArgs 8 6 0.25%float))
     (calls stub_handle
        (__init__ 4 ([16] ++ [8])%list 6 0%float 0.25%float true 5) 0%nat)
  /\ In (GraphAggregationLayer_init (aggregation_layer model_32_24_8))
        (calls stub_handle
           (__init__ 7 ([32; 24] ++ [8])%list 6 0.5%float 0.25%float false 0) 5%nat)
  /\ mkAggArgs 8 6 0.25%float = aggregation_layer model_32_24_8.
Proof.
  assert (H1 : In (GraphAggregationLayer_init (mkAggArgs 8 6 0.25%float))
                  (calls stub_handle
                     (__init__ 4 ([16] ++ [8])%list 6 0%float 0.25%float true 5)
                     0%nat))
    by (right; left; reflexivity).
  assert (H2 : In (GraphAggregationLayer_init (aggregation_layer model_32_24_8))
                  (calls stub_handle
                     (__init__ 7 ([32; 24] ++ [8])%list 6 0.5%float 0.25%float
                               false 0) 5%nat))
    by (right; left; reflexivity).
  split; [exact H1 | split; [exact H2 |]].
  exact (proj1 (aggregation_request_depends_on_last_unit_only
                  ConvArgs AggArgs nat stub_handle
                  8 6 0.25%float 4 7 [16] [32; 24] 0%float 0.5%float
                  true false 5 0 0%nat 5%nat _ _ H1 H2)).
Defined.
